(** * Membership Tracker: calendar logic and member-record operations

    A shallow embedding of [app.py] (the MySQL edition of the membership
    tracker): dates as Python [datetime.date] values, the status refresh,
    [plan_end_date], [generate_member_id], the add-member and edit/renew
    form handlers, the delete action and the expiring-soon filters. *)

From Stdlib Require Import ZArith Ascii String Bool Lia.
From stdpp Require Import base gmap strings list.

Local Open Scope Z_scope.

(* ------------------------------------------------------------------ *)
(** ** Python [datetime.date] *)

Module Date.

(** A [date] value: the three fields [year], [month], [day]. *)
Record date := mkdate { year : Z; month : Z; day : Z }.

Definition MINYEAR : Z := 1.
Definition MAXYEAR : Z := 9999.

Definition is_leap (y : Z) : bool :=
  (y mod 4 =? 0) && (negb (y mod 100 =? 0) || (y mod 400 =? 0)).

Definition days_in_month (y m : Z) : Z :=
  if m =? 2 then (if is_leap y then 29 else 28)
  else if (m =? 4) || (m =? 6) || (m =? 9) || (m =? 11) then 30
  else 31.

(** The range checks of the [date] constructor. *)
Definition valid_date (d : date) : bool :=
  (MINYEAR <=? year d) && (year d <=? MAXYEAR) &&
  (1 <=? month d) && (month d <=? 12) &&
  (1 <=? day d) && (day d <=? days_in_month (year d) (month d)).

(** [date(y, m, d)]: raises [ValueError] (here [None]) out of range. *)
Definition date_new (y m d : Z) : option date :=
  if valid_date (mkdate y m d) then Some (mkdate y m d) else None.

(** Date comparison: CPython compares the (year, month, day) triples. *)
Definition date_le (a b : date) : bool :=
  (year a <? year b) ||
  ((year a =? year b) &&
   ((month a <? month b) || ((month a =? month b) && (day a <=? day b)))).

Definition date_lt (a b : date) : bool :=
  (year a <? year b) ||
  ((year a =? year b) &&
   ((month a <? month b) || ((month a =? month b) && (day a <? day b)))).

(** One day later / earlier; [OverflowError] (here [None]) past the
    ends of the range [1-01-01 .. 9999-12-31]. *)
Definition next_day (d : date) : option date :=
  if day d <? days_in_month (year d) (month d)
  then Some (mkdate (year d) (month d) (day d + 1))
  else if month d <? 12 then Some (mkdate (year d) (month d + 1) 1)
  else if year d <? MAXYEAR then Some (mkdate (year d + 1) 1 1)
  else None.

Definition prev_day (d : date) : option date :=
  if 1 <? day d then Some (mkdate (year d) (month d) (day d - 1))
  else if 1 <? month d
  then Some (mkdate (year d) (month d - 1) (days_in_month (year d) (month d - 1)))
  else if MINYEAR <? year d then Some (mkdate (year d - 1) 12 31)
  else None.

Fixpoint iter_days (step : date -> option date) (k : nat) (d : date)
  : option date :=
  match k with
  | O => Some d
  | S k' => match step d with Some d' => iter_days step k' d' | None => None end
  end.

(** [d + timedelta(days=n)]: the date [n] days away, one day at a time. *)
Definition add_days (d : date) (n : Z) : option date :=
  if 0 <=? n then iter_days next_day (Z.to_nat n) d
  else iter_days prev_day (Z.to_nat (- n)) d.

End Date.

Import Date.

(* ------------------------------------------------------------------ *)
(** ** Python [str] helpers used by the handlers (ASCII characters) *)

Module PyStr.

(** [str.isspace] on ASCII: tab .. carriage return, 0x1c .. 0x1f, space. *)
Definition is_space (c : ascii) : bool :=
  let n := nat_of_ascii c in
  ((9 <=? n) && (n <=? 13))%nat || ((28 <=? n) && (n <=? 32))%nat.

Fixpoint lstrip (s : string) : string :=
  match s with
  | EmptyString => EmptyString
  | String c r => if is_space c then lstrip r else s
  end.

Fixpoint rstrip (s : string) : string :=
  match s with
  | EmptyString => EmptyString
  | String c r =>
      match rstrip r with
      | EmptyString => if is_space c then EmptyString else String c EmptyString
      | r' => String c r'
      end
  end.

(** [s.strip()] *)
Definition strip (s : string) : string := rstrip (lstrip s).

Definition lower_char (c : ascii) : ascii :=
  let n := nat_of_ascii c in
  if ((65 <=? n) && (n <=? 90))%nat then ascii_of_nat (n + 32) else c.

(** [s.lower()] *)
Fixpoint lower (s : string) : string :=
  match s with
  | EmptyString => EmptyString
  | String c r => String (lower_char c) (lower r)
  end.

Definition is_digit_char (c : ascii) : bool :=
  let n := nat_of_ascii c in ((48 <=? n) && (n <=? 57))%nat.

Fixpoint all_digits (s : string) : bool :=
  match s with
  | EmptyString => true
  | String c r => is_digit_char c && all_digits r
  end.

(** [s.isdigit()]: non-empty and every character a digit. *)
Definition isdigit (s : string) : bool :=
  match s with EmptyString => false | _ => all_digits s end.

(** [s.startswith("M")] *)
Definition startswith_M (s : string) : bool :=
  match s with String c _ => Ascii.eqb c "M"%char | EmptyString => false end.

(** [s[1:]] *)
Definition drop1 (s : string) : string :=
  match s with String _ r => r | EmptyString => EmptyString end.

Definition digit_value (c : ascii) : Z := Z.of_nat (nat_of_ascii c) - 48.

Fixpoint int_acc (acc : Z) (s : string) : Z :=
  match s with
  | EmptyString => acc
  | String c r => int_acc (10 * acc + digit_value c) r
  end.

(** [int(s)] on a string of decimal digits. *)
Definition int_of_digits (s : string) : Z := int_acc 0 s.

Definition digit_char (n : Z) : ascii := ascii_of_nat (48 + Z.to_nat n).

Fixpoint digits_aux (fuel : nat) (n : Z) (acc : string) : string :=
  match fuel with
  | O => acc
  | S f =>
      let acc' := String (digit_char (n mod 10)) acc in
      if n <? 10 then acc' else digits_aux f (n / 10) acc'
  end.

(** [str(n)] for [n >= 0]. *)
Definition str_of_nonneg (n : Z) : string := digits_aux (S (Z.to_nat n)) n EmptyString.

Fixpoint zeros (k : nat) : string :=
  match k with O => EmptyString | S k' => String "0"%char (zeros k') end.

(** [f"{n:04d}"]: zero padded to a width of four, sign included. *)
Definition format_04d (n : Z) : string :=
  if n <? 0 then
    let s := str_of_nonneg (- n) in
    String "-"%char (String.append (zeros (3 - String.length s)) s)
  else
    let s := str_of_nonneg n in
    String.append (zeros (4 - String.length s)) s.

(** [x in xs] for a list of strings. *)
Definition str_in (x : string) (xs : list string) : bool :=
  existsb (String.eqb x) xs.

End PyStr.

Import PyStr.

(* ------------------------------------------------------------------ *)
(** ** Records and the calendar logic of [app.py] *)

Inductive status := Active | Expired | Unknown.

(** A row of the [members] table; nullable columns are [option]s. *)
Record member := mkmember {
  MemberID : string;
  Name : string;
  Email : option string;
  Phone : option string;
  StartDate : option date;
  EndDate : option date;
  PlanType : option string;
  Status : option status;
  Notes : option string
}.

(** The lambda of [refresh_status], applied to one [EndDate] value. *)
Definition refresh_status_row (today : date) (x : option date) : status :=
  match x with
  | Some x => if date_le today x then Active else Expired
  | None => Unknown
  end.

(** [refresh_status(df)]: overwrite the [Status] column. *)
Definition refresh_status (today : date) (df : list member) : list member :=
  map (fun m => {| MemberID := MemberID m; Name := Name m; Email := Email m;
                   Phone := Phone m; StartDate := StartDate m; EndDate := EndDate m;
                   PlanType := PlanType m;
                   Status := Some (refresh_status_row today (EndDate m));
                   Notes := Notes m |}) df.

(** [plan_end_date(start, plan_name, plans_dict)] *)
Definition plan_end_date (start : date) (plan_name : string)
    (plans_dict : gmap string Z) : option date :=
  let months := default 12 (plans_dict !! plan_name) in
  let y := year start + (month start - 1 + months) / 12 in
  let m := (month start - 1 + months) mod 12 + 1 in
  let d := Z.min (day start) 28 in
  date_new y m d.

(** [generate_member_id(df)], given the [MemberID] column. *)
Definition generate_member_id (existing : list string) : string :=
  let nums := map (fun v => int_of_digits (drop1 v))
                  (List.filter (fun v => startswith_M v && isdigit (drop1 v)) existing) in
  match nums with
  | [] => "M001"
  | n :: rest => String "M"%char (format_04d (fold_left Z.max rest n + 1))
  end.

(* ------------------------------------------------------------------ *)
(** ** Database writes *)

(** The status written by [add_member_to_db] and [update_member_in_db]:
    [end_date >= date.today()]. *)
Definition write_status (today end_date : date) : status :=
  if date_le today end_date then Active else Expired.

(** [add_member_to_db]: the [INSERT] appends one row. *)
Definition add_member_to_db (members : list member) (today : date)
    (member_id name email phone : string) (start_date end_date : date)
    (plan_choice notes : string) : list member :=
  members ++ [{| MemberID := member_id; Name := name; Email := Some email;
                 Phone := Some phone; StartDate := Some start_date;
                 EndDate := Some end_date; PlanType := Some plan_choice;
                 Status := Some (write_status today end_date);
                 Notes := Some notes |}].

(** [update_member_in_db]: [UPDATE members SET ... WHERE MemberID=%s]. *)
Definition update_member_in_db (members : list member) (today : date)
    (member_id name email phone : string) (start_date end_date : date)
    (plan_choice notes : string) : list member :=
  map (fun m =>
         if String.eqb (MemberID m) member_id
         then {| MemberID := MemberID m; Name := name; Email := Some email;
                 Phone := Some phone; StartDate := Some start_date;
                 EndDate := Some end_date; PlanType := Some plan_choice;
                 Status := Some (write_status today end_date);
                 Notes := Some notes |}
         else m) members.

(** The delete action: [DELETE FROM members WHERE MemberID = %s]. *)
Definition delete_member (members : list member) (to_delete : string) : list member :=
  List.filter (fun m => negb (String.eqb (MemberID m) to_delete)) members.

(* ------------------------------------------------------------------ *)
(** ** The add-member form *)

Inductive add_outcome :=
  | AddRequired      (** "Member ID and Full Name are required." *)
  | AddEmailExists   (** "Email already exists in the system." *)
  | AddIdExists      (** "Member ID already exists. ..." *)
  | AddInserted.

(** The submit branch of [add_member_form]: the outcome and the rows of
    the [members] table afterwards. *)
Definition add_member_submit (members : list member) (today : date)
    (member_id name email phone : string) (start_date end_date : date)
    (plan_choice notes : string) : add_outcome * list member :=
  let member_id :=
    if String.eqb (strip member_id) "" then generate_member_id (map MemberID members)
    else member_id in
  let existing_emails := map lower (omap Email members) in
  let existing_ids := map MemberID members in
  if String.eqb (strip member_id) "" || String.eqb (strip name) "" then
    (AddRequired, members)
  else if negb (String.eqb (strip email) "") &&
          str_in (lower (strip email)) existing_emails then
    (AddEmailExists, members)
  else if str_in (strip member_id) existing_ids then
    (AddIdExists, members)
  else
    (AddInserted,
     add_member_to_db members today (strip member_id) (strip name) (strip email)
       (strip phone) start_date end_date plan_choice (strip notes)).

(* ------------------------------------------------------------------ *)
(** ** The renew/edit form *)

(** The disabled "Start Date" field: the stored start date, or today. *)
Definition edit_form_start (sel : member) (today : date) : date :=
  match StartDate sel with Some d => d | None => today end.

(** The initial value of the "End Date" field: the stored end date, or
    [plan_end_date(today, plan_choice, plans)] (computed in any case, so
    a [ValueError] there, [None], fails the page). *)
Definition edit_form_end_default (sel : member) (today : date)
    (plan_choice : string) (plans : gmap string Z) : option date :=
  match plan_end_date today plan_choice plans with
  | None => None
  | Some auto_end_date =>
      Some (match EndDate sel with Some e => e | None => auto_end_date end)
  end.

(** The quick-renew step of the save handler, from the "End Date" field
    [end_date]. The result is [new_end]; [None] when it is no date (the
    field was empty and no renewal applied, so [update_member_in_db]
    raises on the comparison) or when [date(...)] raises. *)
Definition quick_renew (end_date : option date) (today : date)
    (renew_months : Z) (apply_quick : bool) : option date :=
  if apply_quick && (0 <? renew_months) then
    let base := match end_date with Some e => e | None => today end in
    let y := year base + (month base - 1 + renew_months) / 12 in
    let m := (month base - 1 + renew_months) mod 12 + 1 in
    let d := Z.min (day base) 28 in
    date_new y m d
  else end_date.

(** The save handler of [edit_member_form]: [None] when it raises. *)
Definition edit_member_save (members : list member) (sel : member) (today : date)
    (name email phone plan_choice : string) (end_date : option date)
    (notes : string) (renew_months : Z) (apply_quick : bool)
    : option (list member) :=
  let start_date := edit_form_start sel today in
  match quick_renew end_date today renew_months apply_quick with
  | Some new_end =>
      Some (update_member_in_db members today (MemberID sel) (strip name)
              (strip email) (strip phone) start_date new_end plan_choice (strip notes))
  | None => None
  end.

(* ------------------------------------------------------------------ *)
(** ** Expiring soon *)

(** [soon = date.today() + timedelta(days=30)] *)
Definition soon_of (today : date) : option date := add_days today 30.

(** The [ExpiringSoon] column of the members table. *)
Definition expiring_soon_flag (soon : date) (x : option date) : bool :=
  match x with Some x => date_le x soon | None => false end.

(** The "Expiring Soon (Next 30 Days)" table. *)
Definition expiring_soon_table (soon : date) (members : list member) : list member :=
  List.filter (fun m => match EndDate m with Some e => date_le e soon | None => false end)
    members.

(** The status shown on the renew/edit card. *)
Inductive status_flag := FlagExpired | FlagExpiringSoon | FlagActive | FlagUnknown.

Definition edit_card_flag (today soon : date) (end_date_val : option date) : status_flag :=
  match end_date_val with
  | Some e =>
      if date_lt e today then FlagExpired
      else if date_le e soon then FlagExpiringSoon
      else FlagActive
  | None => FlagUnknown
  end.

(* ------------------------------------------------------------------ *)
(** ** Dashboard *)

Definition status_name (s : status) : string :=
  match s with Active => "Active" | Expired => "Expired" | Unknown => "Unknown" end.

(** [df["Status"] == s] *)
Definition has_status (s : string) (m : member) : bool :=
  match Status m with Some st => String.eqb (status_name st) s | None => false end.

(** [df["PlanType"] == p] *)
Definition has_plan (p : string) (m : member) : bool :=
  match PlanType m with Some q => String.eqb q p | None => false end.

(** The two dashboard select boxes ("All" or one value). *)
Definition dashboard_filter (plan_filter status_filter : string) (members : list member)
  : list member :=
  let df := if String.eqb plan_filter "All" then members
            else List.filter (has_plan plan_filter) members in
  if String.eqb status_filter "All" then df else List.filter (has_status status_filter) df.

(** The KPI counts: total, active, expired, unknown. *)
Definition kpi_counts (df : list member) : nat * nat * nat * nat :=
  (length df, length (List.filter (has_status "Active") df),
   length (List.filter (has_status "Expired") df),
   length (List.filter (has_status "Unknown") df)).

(** [last_month = today.replace(day=1) - timedelta(days=1)] *)
Definition last_month_of (today : date) : option date :=
  add_days (mkdate (year today) (month today) 1) (-1).

(** Retention trend at a month end [m]: [StartDate <= m] (NaT compares
    false) and [(StartDate <= m) & (EndDate >= m)]. *)
Definition total_at_month (m : date) (df : list member) : nat :=
  length (List.filter (fun r => match StartDate r with
                                | Some s => date_le s m | None => false end) df).

Definition active_at_month (m : date) (df : list member) : nat :=
  length (List.filter (fun r => match StartDate r, EndDate r with
                                | Some s, Some e => date_le s m && date_le m e
                                | _, _ => false end) df).

(* ------------------------------------------------------------------ *)
(** ** Members tab: search and filters *)

Fixpoint prefix (p s : string) : bool :=
  match p, s with
  | EmptyString, _ => true
  | String c p', String d s' => Ascii.eqb c d && prefix p' s'
  | String _ _, EmptyString => false
  end.

(** [p in s] for strings: [p] is a substring of [s]. *)
Fixpoint contains (p s : string) : bool :=
  prefix p s || match s with EmptyString => false | String _ s' => contains p s' end.

(** [str(x)] of a nullable text cell: [None] prints as ["None"]. *)
Definition py_str (x : option string) : string :=
  match x with Some s => s | None => "None" end.

(** The search lambda, with [s = search.lower()]. *)
Definition matches_search (s : string) (r : member) : bool :=
  contains s (lower (Name r)) || contains s (lower (py_str (Email r))) ||
  contains s (lower (py_str (Phone r))).

(** [df_view['Status'].isin(status_filter)] *)
Definition status_isin (status_filter : list string) (r : member) : bool :=
  match Status r with Some st => str_in (status_name st) status_filter | None => false end.

(** [df_view['PlanType'].isin(plan_filter)] *)
Definition plan_isin (plan_filter : list string) (r : member) : bool :=
  match PlanType r with Some p => str_in p plan_filter | None => false end.

(** The rows shown in the members table. *)
Definition members_view (search : string) (status_filter plan_filter : list string)
    (members : list member) : list member :=
  let df := if String.eqb search "" then members
            else List.filter (matches_search (lower search)) members in
  let df := List.filter (status_isin status_filter) df in
  List.filter (plan_isin plan_filter) df.

(* ------------------------------------------------------------------ *)
(** ** Plans *)


(** The plan preselected by the edit form: the stored plan type if it is
    a key of [plans], else the first key ([index=0]); [None] when there
    are no plans (no option to select). *)
Definition edit_form_plan_default (plan_keys : list string) (sel : member) : option string :=
  match PlanType sel with
  | Some p => if str_in p plan_keys then Some p else head plan_keys
  | None => head plan_keys
  end.

(** One row of [refresh_status]. *)
Definition refresh_row (today : date) (m : member) : member :=
  {| MemberID := MemberID m; Name := Name m; Email := Email m;
     Phone := Phone m; StartDate := StartDate m; EndDate := EndDate m;
     PlanType := PlanType m;
     Status := Some (refresh_status_row today (EndDate m));
     Notes := Notes m |}.

(** The filter of [generate_member_id]: [v.startswith("M") and v[1:].isdigit()]. *)
Definition member_id_conforming (v : string) : bool := startswith_M v && isdigit (drop1 v).

(* ================================================================== *)
(** * Properties *)

(* ------------------------------------------------------------------ *)
(** ** Calendar facts *)

Lemma days_in_month_ge_28 (y m : Z) : 28 <= days_in_month y m.
Proof.
  unfold days_in_month.
  destruct (m =? 2); [destruct (is_leap y)|destruct (_ || _)]; lia.
Qed.

Lemma valid_date_of_bounds (y m d : Z) :
  MINYEAR <= y <= MAXYEAR -> 1 <= m <= 12 -> 1 <= d <= 28 ->
  valid_date (mkdate y m d) = true.
Proof.
  intros Hy Hm Hd. pose proof (days_in_month_ge_28 y m).
  unfold valid_date; simpl. rewrite !andb_true_iff, !Z.leb_le. lia.
Qed.

Lemma date_le_refl (d : date) : date_le d d = true.
Proof.
  unfold date_le. rewrite !Z.eqb_refl, Z.leb_refl. simpl.
  rewrite !orb_true_r. reflexivity.
Qed.

Lemma date_le_negb_lt (a b : date) : date_le a b = negb (date_lt b a).
Proof.
  unfold date_le, date_lt.
  destruct (Z.ltb_spec (year a) (year b)), (Z.ltb_spec (year b) (year a)),
           (Z.eqb_spec (year a) (year b)), (Z.eqb_spec (year b) (year a)),
           (Z.ltb_spec (month a) (month b)), (Z.ltb_spec (month b) (month a)),
           (Z.eqb_spec (month a) (month b)), (Z.eqb_spec (month b) (month a)),
           (Z.leb_spec (day a) (day b)), (Z.ltb_spec (day b) (day a));
    simpl; try reflexivity; lia.
Qed.

Lemma prev_day_lt (t y : date) : prev_day t = Some y -> date_lt y t = true.
Proof.
  unfold prev_day, date_lt.
  destruct (Z.ltb_spec 1 (day t)) as [H1|H1].
  { intros [= <-]; simpl. rewrite Z.eqb_refl, Z.eqb_refl.
    replace (day t - 1 <? day t) with true by (symmetry; apply Z.ltb_lt; lia).
    rewrite !orb_true_r. reflexivity. }
  destruct (Z.ltb_spec 1 (month t)) as [H2|H2].
  { intros [= <-]; simpl. rewrite Z.eqb_refl.
    replace (month t - 1 <? month t) with true by (symmetry; apply Z.ltb_lt; lia).
    rewrite !orb_true_r. reflexivity. }
  destruct (Z.ltb_spec MINYEAR (year t)) as [H3|H3]; [|discriminate].
  intros [= <-]; simpl.
  replace (year t - 1 <? year t) with true by (symmetry; apply Z.ltb_lt; lia).
  reflexivity.
Qed.

Lemma add_days_minus_one (t : date) : add_days t (-1) = prev_day t.
Proof. unfold add_days; simpl. destruct (prev_day t); reflexivity. Qed.

(** The arithmetic of [plan_end_date] for the duration it looks up. *)
Lemma plan_end_date_spec (start : date) (plan_name : string)
    (plans_dict : gmap string Z) (months : Z) :
  valid_date start = true ->
  default 12 (plans_dict !! plan_name) = months -> 0 <= months ->
  year start + (month start - 1 + months) / 12 <= MAXYEAR ->
  plan_end_date start plan_name plans_dict =
    Some (mkdate (year start + (month start - 1 + months) / 12)
                 ((month start - 1 + months) mod 12 + 1)
                 (Z.min (day start) 28)) /\
  valid_date (mkdate (year start + (month start - 1 + months) / 12)
                     ((month start - 1 + months) mod 12 + 1)
                     (Z.min (day start) 28)) = true.
Proof.
  intros Hv Hm H0 Hy.
  assert (Hs : MINYEAR <= year start /\ 1 <= month start <= 12 /\ 1 <= day start).
  { unfold valid_date in Hv. rewrite !andb_true_iff, !Z.leb_le in Hv.
    unfold MINYEAR in *; lia. }
  assert (Hok : valid_date (mkdate (year start + (month start - 1 + months) / 12)
                     ((month start - 1 + months) mod 12 + 1)
                     (Z.min (day start) 28)) = true).
  { pose proof (Z.mod_pos_bound (month start - 1 + months) 12 ltac:(lia)).
    pose proof (Z.div_pos (month start - 1 + months) 12 ltac:(lia) ltac:(lia)).
    apply valid_date_of_bounds; unfold MINYEAR, MAXYEAR in *; lia. }
  split; [|exact Hok].
  unfold plan_end_date, date_new. rewrite Hm, Hok. reflexivity.
Qed.

(* ------------------------------------------------------------------ *)
(** ** Status refresh *)

(** C1: [refresh_status] gives [Active] for a present end date on or
    after today, [Expired] for a present end date before today and
    [Unknown] for an absent one; in particular yesterday gives [Expired],
    today gives [Active] and no date gives [Unknown]. *)
Theorem refresh_status_contract (today : date) :
  (forall e, date_le today e = true -> refresh_status_row today (Some e) = Active) /\
  (forall e, date_lt e today = true -> refresh_status_row today (Some e) = Expired) /\
  refresh_status_row today None = Unknown /\
  (forall y, add_days today (-1) = Some y -> refresh_status_row today (Some y) = Expired) /\
  refresh_status_row today (Some today) = Active.
Proof.
  assert (Hexp : forall e, date_lt e today = true ->
                 refresh_status_row today (Some e) = Expired).
  { intros e He. simpl. rewrite date_le_negb_lt, He. reflexivity. }
  split; [|split; [exact Hexp|split; [reflexivity|split]]].
  - intros e He. simpl. rewrite He. reflexivity.
  - intros y Hy. rewrite add_days_minus_one in Hy.
    apply Hexp, prev_day_lt, Hy.
  - simpl. rewrite date_le_refl. reflexivity.
Qed.

Lemma refresh_status_contract_witness :
  add_days (mkdate 2024 3 1) (-1) = Some (mkdate 2024 2 29) /\
  refresh_status_row (mkdate 2024 3 1) (Some (mkdate 2024 2 29)) = Expired.
Proof.
  split; [reflexivity|].
  apply (proj1 (proj2 (proj2 (proj2 (refresh_status_contract (mkdate 2024 3 1)))))).
  reflexivity.
Defined.

(* ------------------------------------------------------------------ *)
(** ** [plan_end_date] *)

(** C2 (as amended): for a valid start date and a catalog giving the plan
    [m >= 0] months, [plan_end_date] returns
    [date(start.year + (start.month - 1 + m) // 12, (start.month - 1 + m) % 12 + 1,
    min(start.day, 28))], a valid date with day at most 28, provided that
    year is at most 9999 ([date.MAXYEAR]); e.g. 2024-01-31 plus one month
    of Bronze gives 2024-02-28. *)
Theorem plan_end_date_formula (start : date) (plan_name : string)
    (plans_dict : gmap string Z) (m : Z) :
  valid_date start = true -> plans_dict !! plan_name = Some m -> 0 <= m ->
  year start + (month start - 1 + m) / 12 <= MAXYEAR ->
  plan_end_date start plan_name plans_dict =
    Some (mkdate (year start + (month start - 1 + m) / 12)
                 ((month start - 1 + m) mod 12 + 1) (Z.min (day start) 28)) /\
  Z.min (day start) 28 <= 28 /\
  valid_date (mkdate (year start + (month start - 1 + m) / 12)
                     ((month start - 1 + m) mod 12 + 1) (Z.min (day start) 28)) = true /\
  plan_end_date (mkdate 2024 1 31) "Bronze" {[ "Bronze" := 1 ]} = Some (mkdate 2024 2 28).
Proof.
  intros Hv Hl Hm Hy.
  destruct (plan_end_date_spec start plan_name plans_dict m Hv) as [Heq Hok];
    [rewrite Hl; reflexivity | exact Hm | exact Hy |].
  split; [exact Heq|split; [lia|split; [exact Hok|reflexivity]]].
Qed.

Lemma plan_end_date_formula_witness :
  plan_end_date (mkdate 2023 1 15) "Gold" {[ "Gold" := 9 ]} = Some (mkdate 2023 10 15).
Proof.
  refine (proj1 (plan_end_date_formula (mkdate 2023 1 15) "Gold" {[ "Gold" := 9 ]} 9
                   _ _ _ _)); [reflexivity|reflexivity|lia|vm_compute; discriminate].
Defined.

(** C2 counterexample: from 9999-12-01 one month of Bronze reaches the
    year 10000 and the [date] constructor raises. *)
Lemma plan_end_date_year_overflow :
  valid_date (mkdate 9999 12 1) = true /\
  plan_end_date (mkdate 9999 12 1) "Bronze" {[ "Bronze" := 1 ]} = None.
Proof. split; reflexivity. Qed.

(** C3 (as amended): for a plan name absent from the catalog,
    [plan_end_date] takes 12 months, so from a valid start date before the
    year 9999 it returns the same month of the next year with day
    [min(start.day, 28)]; e.g. 2024-01-01 gives 2025-01-01. *)
Theorem plan_end_date_unknown_plan (start : date) (plan_name : string)
    (plans_dict : gmap string Z) :
  valid_date start = true -> plans_dict !! plan_name = None ->
  year start + 1 <= MAXYEAR ->
  plan_end_date start plan_name plans_dict =
    Some (mkdate (year start + 1) (month start) (Z.min (day start) 28)) /\
  plan_end_date (mkdate 2024 1 1) "Nonexistent" {[ "Bronze" := 3 ]} = Some (mkdate 2025 1 1).
Proof.
  intros Hv Hl Hy.
  assert (Hs : 1 <= month start <= 12).
  { unfold valid_date in Hv. rewrite !andb_true_iff, !Z.leb_le in Hv. lia. }
  assert (Hq : (month start - 1 + 12) / 12 = 1).
  { symmetry. apply Z.div_unique with (month start - 1); lia. }
  assert (Hr : (month start - 1 + 12) mod 12 + 1 = month start).
  { rewrite <- (Z.mod_unique (month start - 1 + 12) 12 1 (month start - 1)); lia. }
  destruct (plan_end_date_spec start plan_name plans_dict 12 Hv) as [Heq _];
    [rewrite Hl; reflexivity | lia | rewrite Hq; exact Hy |].
  rewrite Heq, Hq, Hr. split; reflexivity.
Qed.

Lemma plan_end_date_unknown_plan_witness :
  plan_end_date (mkdate 2023 5 30) "Diamond" {[ "Bronze" := 3 ]} = Some (mkdate 2024 5 28).
Proof.
  refine (proj1 (plan_end_date_unknown_plan (mkdate 2023 5 30) "Diamond"
                   {[ "Bronze" := 3 ]} _ _ _)); [reflexivity|reflexivity|vm_compute; discriminate].
Defined.

(** C3 counterexample: from 9999-01-01 the 12-month default reaches the
    year 10000 and the [date] constructor raises. *)
Lemma plan_end_date_unknown_plan_overflow :
  valid_date (mkdate 9999 1 1) = true /\
  plan_end_date (mkdate 9999 1 1) "Nonexistent" {[ "Bronze" := 3 ]} = None.
Proof. split; reflexivity. Qed.

(* ------------------------------------------------------------------ *)
(** ** [generate_member_id] *)

(** C4: the IDs of the form [M] + digits are parsed and the others
    ignored, so ["M0001"; "M0003"; "X9"] gives ["M0004"]; but with no
    conforming ID the code returns ["M001"], not ["M0001"]. *)
Theorem generate_member_id_no_match :
  generate_member_id [] = "M001" /\
  generate_member_id ["X9"; "M"; "M12a"] = "M001" /\
  generate_member_id ["M0001"; "M0003"; "X9"] = "M0004".
Proof. repeat split; reflexivity. Qed.

Section Decimal.

Lemma digit_char_value (k : Z) : 0 <= k < 10 -> digit_value (digit_char k) = k.
Proof.
  intros Hk. unfold digit_value, digit_char.
  rewrite Ascii.nat_ascii_embedding by lia. lia.
Qed.

Lemma digit_char_is_digit (k : Z) : 0 <= k < 10 -> is_digit_char (digit_char k) = true.
Proof.
  intros Hk. unfold is_digit_char, digit_char.
  rewrite Ascii.nat_ascii_embedding by lia.
  apply andb_true_intro; split; apply Nat.leb_le; lia.
Qed.

Lemma int_acc_app (a : Z) (s t : string) :
  int_acc a (String.append s t) = int_acc (int_acc a s) t.
Proof. revert a; induction s as [|c s IH]; intros a; simpl; auto. Qed.

Lemma all_digits_app (s t : string) :
  all_digits (String.append s t) = all_digits s && all_digits t.
Proof. induction s as [|c s IH]; simpl; [reflexivity|]. rewrite IH, andb_assoc. reflexivity. Qed.

Lemma int_acc_zeros (k : nat) (s : string) :
  int_acc 0 (String.append (zeros k) s) = int_acc 0 s.
Proof. induction k; simpl; auto. Qed.

Lemma all_digits_zeros (k : nat) : all_digits (zeros k) = true.
Proof. induction k; simpl; auto. Qed.

Lemma int_acc_nonneg (a : Z) (s : string) :
  0 <= a -> all_digits s = true -> 0 <= int_acc a s.
Proof.
  revert a; induction s as [|c s IH]; intros a Ha Hs; simpl in *; [exact Ha|].
  apply andb_true_iff in Hs as [Hc Hs]. apply IH; [|exact Hs].
  unfold is_digit_char, digit_value in *.
  apply andb_true_iff in Hc as [Hc _]. apply Nat.leb_le in Hc. lia.
Qed.

Lemma digits_aux_int (f : nat) (n : Z) (acc : string) (a : Z) :
  0 <= n < 10 ^ Z.of_nat f ->
  exists k, 0 <= k /\ int_acc a (digits_aux f n acc) = int_acc (a * 10 ^ k + n) acc.
Proof.
  revert n acc a; induction f as [|f IH]; intros n acc a Hn.
  - exists 0. simpl in *. split; [lia|]. f_equal. lia.
  - rewrite Nat2Z.inj_succ, Z.pow_succ_r in Hn by lia.
    pose proof (Z.mod_pos_bound n 10 ltac:(lia)) as Hm.
    simpl. destruct (Z.ltb_spec n 10) as [Hlt|Hge].
    + exists 1. split; [lia|]. simpl.
      rewrite digit_char_value by exact Hm. rewrite Z.mod_small by lia.
      f_equal. lia.
    + assert (Hd : 0 <= n / 10 < 10 ^ Z.of_nat f).
      { split; [apply Z.div_pos; lia|]. apply Z.div_lt_upper_bound; lia. }
      destruct (IH (n / 10) (String (digit_char (n mod 10)) acc) a Hd) as [k [Hk ->]].
      exists (k + 1). split; [lia|]. simpl.
      rewrite digit_char_value by exact Hm.
      rewrite Z.pow_add_r by lia.
      pose proof (Z.div_mod n 10 ltac:(lia)) as Hdm.
      f_equal. lia.
Qed.

Lemma all_digits_digits_aux (f : nat) (n : Z) (acc : string) :
  0 <= n -> all_digits (digits_aux f n acc) = all_digits acc.
Proof.
  revert n acc; induction f as [|f IH]; intros n acc Hn; cbn [digits_aux]; [reflexivity|].
  pose proof (Z.mod_pos_bound n 10 ltac:(lia)) as Hm.
  destruct (n <? 10); cbn [all_digits].
  - rewrite digit_char_is_digit by exact Hm. reflexivity.
  - rewrite IH by (apply Z.div_pos; lia). cbn [all_digits].
    rewrite digit_char_is_digit by exact Hm. reflexivity.
Qed.

Lemma digits_aux_nonempty (f : nat) (n : Z) (acc : string) :
  acc <> EmptyString -> digits_aux f n acc <> EmptyString.
Proof.
  revert n acc; induction f as [|f IH]; intros n acc Hacc; simpl; [exact Hacc|].
  destruct (n <? 10); [discriminate|]. apply IH. discriminate.
Qed.

Lemma str_of_nonneg_nonempty (n : Z) : str_of_nonneg n <> EmptyString.
Proof.
  unfold str_of_nonneg. simpl. destruct (n <? 10); [discriminate|].
  apply digits_aux_nonempty. discriminate.
Qed.

Lemma int_of_str_of_nonneg (n : Z) : 0 <= n -> int_of_digits (str_of_nonneg n) = n.
Proof.
  intros Hn. unfold int_of_digits, str_of_nonneg.
  assert (Hb : 0 <= n < 10 ^ Z.of_nat (S (Z.to_nat n))).
  { split; [exact Hn|]. rewrite Nat2Z.inj_succ, Z2Nat.id by exact Hn.
    pose proof (Z.pow_gt_lin_r 10 n ltac:(lia) Hn).
    rewrite Z.pow_succ_r by exact Hn. lia. }
  destruct (digits_aux_int _ n EmptyString 0 Hb) as [k [_ ->]]. simpl. lia.
Qed.

Lemma format_04d_digits (n : Z) :
  0 <= n ->
  isdigit (format_04d n) = true /\ int_of_digits (format_04d n) = n.
Proof.
  intros Hn. unfold format_04d.
  destruct (Z.ltb_spec n 0) as [Hlt|_]; [lia|].
  split.
  - pose proof (str_of_nonneg_nonempty n) as Hne.
    assert (Hd : all_digits (String.append (zeros (4 - String.length (str_of_nonneg n)))
                                          (str_of_nonneg n)) = true).
    { rewrite all_digits_app, all_digits_zeros. unfold str_of_nonneg.
      rewrite all_digits_digits_aux by exact Hn. reflexivity. }
    destruct (String.append _ _) as [|c r] eqn:E.
    + destruct (4 - String.length (str_of_nonneg n))%nat; simpl in E;
        [contradiction|discriminate].
    + exact Hd.
  - unfold int_of_digits. rewrite int_acc_zeros. apply int_of_str_of_nonneg, Hn.
Qed.

Lemma fold_max_init (rest : list Z) (n : Z) : n <= fold_left Z.max rest n.
Proof.
  revert n; induction rest as [|r rest IH]; intros n; simpl; [lia|].
  specialize (IH (Z.max n r)). lia.
Qed.

Lemma fold_max_ge (rest : list Z) (n x : Z) :
  In x (n :: rest) -> x <= fold_left Z.max rest n.
Proof.
  revert n; induction rest as [|r rest IH]; intros n Hx; simpl in *.
  - destruct Hx as [->|[]]. lia.
  - pose proof (fold_max_init rest (Z.max n r)).
    destruct Hx as [<-|[<-|Hx]]; [lia|lia|].
    apply IH. right. exact Hx.
Qed.

End Decimal.

Lemma isdigit_all_digits (s : string) : isdigit s = true -> all_digits s = true.
Proof. destruct s; [discriminate|exact id]. Qed.

Lemma str_in_spec (x : string) (xs : list string) : str_in x xs = true <-> In x xs.
Proof.
  unfold str_in. rewrite existsb_exists. split.
  - intros [y [Hy Heq]]. apply String.eqb_eq in Heq. subst. exact Hy.
  - intros Hx. exists x. split; [exact Hx|apply String.eqb_refl].
Qed.

(** A generated ID is not among the IDs it was generated from. *)
Lemma generate_member_id_not_in (existing : list string) :
  ~ In (generate_member_id existing) existing.
Proof.
  unfold generate_member_id. cbv zeta.
  set (p := fun v => startswith_M v && isdigit (drop1 v)).
  destruct (map _ (List.filter p existing)) as [|n rest] eqn:E; intros Hin.
  - assert (HF : In "M001" (List.filter p existing)).
    { apply filter_In. split; [exact Hin|reflexivity]. }
    apply (in_map (fun v => int_of_digits (drop1 v))) in HF.
    rewrite E in HF. destruct HF.
  - assert (Hn : 0 <= n).
    { assert (Hn : In n (map (fun v => int_of_digits (drop1 v)) (List.filter p existing)))
        by (rewrite E; left; reflexivity).
      apply in_map_iff in Hn as [v [<- Hv]].
      apply filter_In in Hv as [_ Hv]. apply andb_true_iff in Hv as [_ Hv].
      apply int_acc_nonneg; [lia|]. apply isdigit_all_digits, Hv. }
    pose proof (fold_max_init rest n) as Hmx.
    destruct (format_04d_digits (fold_left Z.max rest n + 1) ltac:(lia)) as [Hd Hv].
    assert (HF : In (String "M"%char (format_04d (fold_left Z.max rest n + 1)))
                    (List.filter p existing)).
    { apply filter_In. split; [exact Hin|]. unfold p. cbn [startswith_M drop1].
      rewrite Hd. reflexivity. }
    apply (in_map (fun v => int_of_digits (drop1 v))) in HF.
    rewrite E in HF. cbn [drop1] in HF. rewrite Hv in HF.
    apply fold_max_ge in HF. lia.
Qed.

(* ------------------------------------------------------------------ *)
(** ** The add-member form *)

(** Every submit either rejects and leaves the table as it is, or appends
    one row whose ID was absent, whose email passed the uniqueness check
    and whose status is [write_status]. *)
Lemma add_member_submit_inv (members : list member) (today : date)
    (member_id name email phone : string) (start_date end_date : date)
    (plan_choice notes : string) (o : add_outcome) (ms' : list member) :
  add_member_submit members today member_id name email phone start_date end_date
    plan_choice notes = (o, ms') ->
  (o <> AddInserted /\ ms' = members) \/
  (o = AddInserted /\ exists r, ms' = members ++ [r] /\
     MemberID r = strip (if String.eqb (strip member_id) ""
                         then generate_member_id (map MemberID members) else member_id) /\
     ~ In (MemberID r) (map MemberID members) /\
     Email r = Some (strip email) /\
     (strip email <> "" -> ~ In (lower (strip email)) (map lower (omap Email members))) /\
     Status r = Some (write_status today end_date)).
Proof.
  intros H. unfold add_member_submit in H.
  set (mid := if String.eqb (strip member_id) "" then _ else member_id) in H |- *.
  cbv zeta in H.
  destruct (String.eqb (strip mid) "" || String.eqb (strip name) "") eqn:E1.
  { injection H as <- <-. left. split; [discriminate|reflexivity]. }
  destruct (negb (String.eqb (strip email) "") &&
            str_in (lower (strip email)) (map lower (omap Email members))) eqn:E2.
  { injection H as <- <-. left. split; [discriminate|reflexivity]. }
  destruct (str_in (strip mid) (map MemberID members)) eqn:E3.
  { injection H as <- <-. left. split; [discriminate|reflexivity]. }
  injection H as <- <-. right. split; [reflexivity|].
  eexists. split; [reflexivity|]. cbn [MemberID Email Status].
  split; [reflexivity|]. split.
  { intros Hin. apply str_in_spec in Hin. congruence. }
  split; [reflexivity|]. split; [|reflexivity].
  intros Hne Hin. apply str_in_spec in Hin. rewrite Hin, andb_true_r in E2.
  apply negb_false_iff, String.eqb_eq in E2. contradiction.
Qed.

Lemma in_omap_Email (members : list member) (m : member) (e : string) :
  In m members -> Email m = Some e -> In e (omap Email members).
Proof.
  induction members as [|m' ms IH]; intros Hm He; [destruct Hm|].
  simpl. destruct Hm as [<-|Hm].
  - rewrite He. left. reflexivity.
  - destruct (Email m'); [right|]; apply IH; assumption.
Qed.

(** C7: a submit whose trimmed email is non-empty and equal, ignoring
    case, to the email of an existing member inserts nothing and leaves
    the members unchanged; a submit with an empty trimmed email is never
    rejected for its email. *)
Theorem add_member_email_unique (members : list member) (today : date)
    (member_id name email phone : string) (start_date end_date : date)
    (plan_choice notes : string) :
  (strip email <> "" ->
   (exists m e, In m members /\ Email m = Some e /\ lower e = lower (strip email)) ->
   fst (add_member_submit members today member_id name email phone start_date end_date
          plan_choice notes) <> AddInserted /\
   snd (add_member_submit members today member_id name email phone start_date end_date
          plan_choice notes) = members) /\
  (strip email = "" ->
   fst (add_member_submit members today member_id name email phone start_date end_date
          plan_choice notes) <> AddEmailExists).
Proof.
  split.
  - intros Hne [m [e [Hm [He Hl]]]].
    destruct (add_member_submit members today member_id name email phone start_date
                end_date plan_choice notes) as [o ms'] eqn:H.
    apply add_member_submit_inv in H as [[Ho Hms]|[_ [r [_ [_ [_ [_ [Hfresh _]]]]]]]].
    + split; assumption.
    + exfalso. apply (Hfresh Hne). rewrite <- Hl.
      apply in_map, (in_omap_Email members m e Hm He).
  - intros He. unfold add_member_submit. cbv zeta. rewrite He. cbn [String.eqb negb andb].
    destruct (_ || _); [discriminate|].
    destruct (str_in _ _); discriminate.
Qed.

Lemma add_member_email_unique_witness :
  fst (add_member_submit
         [{| MemberID := "M0001"; Name := "Ann"; Email := Some "Ann@Example.org";
             Phone := None; StartDate := None; EndDate := None; PlanType := None;
             Status := None; Notes := None |}]
         (mkdate 2024 6 1) "" "Bob" " ann@example.ORG " "" (mkdate 2024 6 1)
         (mkdate 2024 9 1) "Bronze" "") <> AddInserted.
Proof.
  refine (proj1 (proj1 (add_member_email_unique _ _ _ _ _ _ _ _ _ _) _ _)).
  - discriminate.
  - eexists; eexists. split; [left; reflexivity|]. split; reflexivity.
Defined.

(** C8 (as amended): a submit with a non-blank trimmed ID that is already
    taken inserts nothing; an auto-generated ID is never one of the
    current IDs; and every submit keeps the IDs of the table distinct. *)
Theorem add_member_id_unique (members : list member) (today : date)
    (member_id name email phone : string) (start_date end_date : date)
    (plan_choice notes : string) :
  (strip member_id <> "" -> In (strip member_id) (map MemberID members) ->
   fst (add_member_submit members today member_id name email phone start_date end_date
          plan_choice notes) <> AddInserted /\
   snd (add_member_submit members today member_id name email phone start_date end_date
          plan_choice notes) = members) /\
  ~ In (generate_member_id (map MemberID members)) (map MemberID members) /\
  (NoDup (map MemberID members) ->
   NoDup (map MemberID (snd (add_member_submit members today member_id name email phone
                               start_date end_date plan_choice notes)))).
Proof.
  split; [|split; [apply generate_member_id_not_in|]].
  - intros Hne Hin.
    destruct (add_member_submit members today member_id name email phone start_date
                end_date plan_choice notes) as [o ms'] eqn:H.
    apply add_member_submit_inv in H as [[Ho Hms]|[_ [r [_ [Hid [Hfresh _]]]]]].
    + split; assumption.
    + exfalso. apply Hfresh. rewrite Hid.
      apply String.eqb_neq in Hne. rewrite Hne. exact Hin.
  - intros Hnd.
    destruct (add_member_submit members today member_id name email phone start_date
                end_date plan_choice notes) as [o ms'] eqn:H. simpl.
    apply add_member_submit_inv in H as [[_ ->]|[_ [r [-> [_ [Hfresh _]]]]]];
      [exact Hnd|].
    rewrite map_app. simpl.
    apply NoDup_app. split; [exact Hnd|split; [|apply NoDup_singleton]].
    intros x Hx Hx'. apply list_elem_of_singleton in Hx'. subst x.
    apply Hfresh, list_elem_of_In, Hx.
Qed.

Lemma add_member_id_unique_witness :
  snd (add_member_submit
         [{| MemberID := "M0007"; Name := "Ann"; Email := None;
             Phone := None; StartDate := None; EndDate := None; PlanType := None;
             Status := None; Notes := None |}]
         (mkdate 2024 6 1) " M0007 " "Bob" "" "" (mkdate 2024 6 1)
         (mkdate 2024 9 1) "Bronze" "") =
  [{| MemberID := "M0007"; Name := "Ann"; Email := None;
      Phone := None; StartDate := None; EndDate := None; PlanType := None;
      Status := None; Notes := None |}] /\
  NoDup (map MemberID (snd (add_member_submit [] (mkdate 2024 6 1) "" "Bob" "" ""
                              (mkdate 2024 6 1) (mkdate 2024 9 1) "Bronze" ""))).
Proof.
  split.
  - refine (proj2 (proj1 (add_member_id_unique _ _ _ _ _ _ _ _ _ _) _ _));
      [discriminate|left; reflexivity].
  - apply (proj2 (proj2 (add_member_id_unique [] (mkdate 2024 6 1) "" "Bob" "" ""
                           (mkdate 2024 6 1) (mkdate 2024 9 1) "Bronze" ""))).
    constructor.
Defined.

(** C8 counterexample: IDs are reused after a deletion. From a table
    holding M0001, a blank-ID submit inserts M0002; once M0002 is
    deleted, the next blank-ID submit inserts M0002 again. *)
Lemma member_id_reused_after_delete :
  let m1 := {| MemberID := "M0001"; Name := "Ann"; Email := Some "ann@example.org";
               Phone := None; StartDate := None; EndDate := None; PlanType := None;
               Status := None; Notes := None |} in
  let d := mkdate 2024 6 1 in
  let s1 := snd (add_member_submit [m1] d "" "Bob" "bob@example.org" "" d d "Bronze" "") in
  let s2 := delete_member s1 "M0002" in
  let s3 := snd (add_member_submit s2 d "" "Cy" "cy@example.org" "" d d "Bronze" "") in
  map MemberID s1 = ["M0001"; "M0002"] /\
  map MemberID s2 = ["M0001"] /\
  map MemberID s3 = ["M0001"; "M0002"].
Proof. vm_compute. repeat split. Qed.

(* ------------------------------------------------------------------ *)
(** ** Status written by the add and update paths *)

(** C10: the add and update paths store [Active] exactly when
    [end_date >= today] and [Expired] otherwise, never [Unknown]. *)
Theorem write_paths_status (members : list member) (today : date)
    (member_id name email phone : string) (start_date end_date : date)
    (plan_choice notes : string) :
  write_status today end_date <> Unknown /\
  (write_status today end_date = Active <-> date_le today end_date = true) /\
  (write_status today end_date = Expired <-> date_le today end_date = false) /\
  (fst (add_member_submit members today member_id name email phone start_date end_date
          plan_choice notes) = AddInserted ->
   exists r, snd (add_member_submit members today member_id name email phone start_date
                    end_date plan_choice notes) = members ++ [r] /\
             Status r = Some (write_status today end_date)) /\
  (forall r, In r (update_member_in_db members today member_id name email phone
                     start_date end_date plan_choice notes) ->
   MemberID r = member_id -> Status r = Some (write_status today end_date)).
Proof.
  unfold write_status at 1 2 3.
  split; [destruct (date_le today end_date); discriminate|].
  split; [destruct (date_le today end_date); split; congruence|].
  split; [destruct (date_le today end_date); split; congruence|].
  split.
  - destruct (add_member_submit members today member_id name email phone start_date
                end_date plan_choice notes) as [o ms'] eqn:H. simpl. intros Ho.
    apply add_member_submit_inv in H as [[Hne _]|[_ [r [Hms [_ [_ [_ [_ Hst]]]]]]]];
      [contradiction|].
    exists r. split; assumption.
  - intros r Hr Hid. unfold update_member_in_db in Hr.
    apply in_map_iff in Hr as [m [Hm _]].
    destruct (String.eqb (MemberID m) member_id) eqn:E.
    + subst r. reflexivity.
    + subst r. apply String.eqb_neq in E. contradiction.
Qed.

Lemma write_paths_status_witness :
  exists r,
    snd (add_member_submit [] (mkdate 2024 6 1) "" "Bob" "" "" (mkdate 2024 6 1)
           (mkdate 2024 5 1) "Bronze" "") = [] ++ [r] /\ Status r = Some Expired.
Proof.
  destruct (proj1 (proj2 (proj2 (proj2 (write_paths_status [] (mkdate 2024 6 1) "" "Bob"
              "" "" (mkdate 2024 6 1) (mkdate 2024 5 1) "Bronze" "")))) eq_refl)
    as [r [Hr Hs]].
  exists r. split; [exact Hr|exact Hs].
Defined.

(* ------------------------------------------------------------------ *)
(** ** The renew/edit form *)

Lemma NoDup_map_same_key {A B} (f : A -> B) (l : list A) (x y : A) :
  NoDup (map f l) -> In x l -> In y l -> f x = f y -> x = y.
Proof.
  induction l as [|a l IH]; intros Hnd Hx Hy Hf; [destruct Hx|].
  simpl in Hnd. apply NoDup_cons in Hnd as [Hnotin Hnd].
  destruct Hx as [<-|Hx], Hy as [<-|Hy]; [reflexivity| | |auto].
  - exfalso. apply Hnotin, list_elem_of_In. rewrite Hf. apply in_map, Hy.
  - exfalso. apply Hnotin, list_elem_of_In. rewrite <- Hf. apply in_map, Hx.
Qed.

(** C6 (as amended): saving the edit form writes back the start date of
    the disabled field: with unique IDs and a stored start date, no
    row's [StartDate] changes; a member without a stored start date gets
    today's date as [StartDate]. *)
Theorem edit_member_start_date (members : list member) (sel : member) (today : date)
    (name email phone plan_choice : string) (end_date : option date) (notes : string)
    (renew_months : Z) (apply_quick : bool) (ms' : list member) :
  edit_member_save members sel today name email phone plan_choice end_date notes
    renew_months apply_quick = Some ms' ->
  (forall d, NoDup (map MemberID members) -> In sel members -> StartDate sel = Some d ->
     map StartDate ms' = map StartDate members) /\
  (StartDate sel = None ->
     forall r, In r ms' -> MemberID r = MemberID sel -> StartDate r = Some today).
Proof.
  unfold edit_member_save.
  destruct (quick_renew end_date today renew_months apply_quick) as [new_end|];
    [|discriminate].
  intros [= <-]. unfold update_member_in_db. split.
  - intros d Hnd Hsel Hd. rewrite map_map. apply map_ext_in. intros m Hm.
    destruct (String.eqb (MemberID m) (MemberID sel)) eqn:E; [|reflexivity].
    apply String.eqb_eq in E.
    rewrite (NoDup_map_same_key MemberID members m sel Hnd Hm Hsel E).
    cbn [StartDate]. unfold edit_form_start. rewrite Hd. reflexivity.
  - intros Hnone r Hr Hid. apply in_map_iff in Hr as [m [Hm _]].
    destruct (String.eqb (MemberID m) (MemberID sel)) eqn:E.
    + subst r. cbn [StartDate]. unfold edit_form_start. rewrite Hnone. reflexivity.
    + subst r. apply String.eqb_neq in E. contradiction.
Qed.

Lemma edit_member_start_date_witness :
  let m0 := {| MemberID := "M0001"; Name := "Ann"; Email := None; Phone := None;
               StartDate := Some (mkdate 2023 1 15); EndDate := Some (mkdate 2023 10 15);
               PlanType := Some "Gold"; Status := None; Notes := None |} in
  exists ms',
    edit_member_save [m0] m0 (mkdate 2024 6 1) "Ann" "" "" "Gold"
      (Some (mkdate 2023 10 15)) "" 3 true = Some ms' /\
    map StartDate ms' = map StartDate [m0].
Proof.
  intros m0.
  eexists. split; [reflexivity|].
  refine (proj1 (edit_member_start_date [m0] m0 (mkdate 2024 6 1) "Ann" "" "" "Gold"
                   (Some (mkdate 2023 10 15)) "" 3 true _ eq_refl)
                (mkdate 2023 1 15) _ _ eq_refl).
  - constructor; [intros Hin; inversion Hin|constructor].
  - left. reflexivity.
Defined.

(** C6 counterexample: a member stored without a start date gets today's
    date as [StartDate] when the edit form is saved. *)
Lemma edit_member_sets_missing_start_date :
  let m0 := {| MemberID := "M0001"; Name := "Ann"; Email := None; Phone := None;
               StartDate := None; EndDate := Some (mkdate 2024 12 1);
               PlanType := Some "Bronze"; Status := None; Notes := None |} in
  option_map (map StartDate)
    (edit_member_save [m0] m0 (mkdate 2024 6 1) "Ann" "" "" "Bronze"
       (Some (mkdate 2024 12 1)) "" 0 false) = Some [Some (mkdate 2024 6 1)] /\
  map StartDate [m0] = [None].
Proof. split; reflexivity. Qed.

(** C5 (as amended): quick renew applies only when its box is checked
    and the month count is positive; it then computes the new end date
    with the arithmetic of [plan_end_date] from the form's End Date field
    (today when that field is empty), e.g. 2024-11-30 plus 3 months gives
    2025-02-28. The field starts at the stored end date, or at
    [plan_end_date(today, plan)] when there is none. *)
Theorem quick_renew_contract (end_date : option date) (today : date)
    (renew_months : Z) (apply_quick : bool) :
  (apply_quick && (0 <? renew_months) = false ->
   quick_renew end_date today renew_months apply_quick = end_date) /\
  (apply_quick = true -> 0 < renew_months -> forall p : string,
   quick_renew end_date today renew_months apply_quick =
   plan_end_date (match end_date with Some e => e | None => today end) p
     {[ p := renew_months ]}) /\
  (forall (sel : member) (plan_choice : string) (plans : gmap string Z) (a : date),
   plan_end_date today plan_choice plans = Some a ->
   edit_form_end_default sel today plan_choice plans =
   Some (match EndDate sel with Some e => e | None => a end)) /\
  quick_renew (Some (mkdate 2024 11 30)) today 3 true = Some (mkdate 2025 2 28).
Proof.
  split; [intros H; unfold quick_renew; rewrite H; reflexivity|].
  split.
  { intros Ha Hm p. unfold quick_renew, plan_end_date.
    rewrite Ha. replace (0 <? renew_months) with true by (symmetry; apply Z.ltb_lt, Hm).
    rewrite lookup_singleton_eq. reflexivity. }
  split; [|reflexivity].
  intros sel plan_choice plans a Ha. unfold edit_form_end_default. rewrite Ha. reflexivity.
Qed.

Lemma quick_renew_contract_witness :
  quick_renew None (mkdate 2024 1 15) 2 true =
    plan_end_date (mkdate 2024 1 15) "Bronze" {[ "Bronze" := 2 ]} /\
  quick_renew (Some (mkdate 2024 3 1)) (mkdate 2024 1 15) 0 true = Some (mkdate 2024 3 1).
Proof.
  split.
  - apply (proj1 (proj2 (quick_renew_contract None (mkdate 2024 1 15) 2 true))
             eq_refl ltac:(lia) "Bronze").
  - apply (proj1 (quick_renew_contract (Some (mkdate 2024 3 1)) (mkdate 2024 1 15) 0 true)).
    reflexivity.
Defined.

(** C5 counterexample: for a member without an end date, an untouched
    form renews from the pre-filled [plan_end_date(today, plan)], not
    from today: on 2024-01-15 with Bronze = 3 months, one month of quick
    renew stores 2024-05-15 where renewing from today gives 2024-02-15. *)
Lemma quick_renew_base_not_today :
  let sel := {| MemberID := "M0001"; Name := "Ann"; Email := None; Phone := None;
                StartDate := Some (mkdate 2023 1 15); EndDate := None;
                PlanType := Some "Bronze"; Status := None; Notes := None |} in
  let today := mkdate 2024 1 15 in
  edit_form_end_default sel today "Bronze" {[ "Bronze" := 3 ]} = Some (mkdate 2024 4 15) /\
  option_map (map EndDate)
    (edit_member_save [sel] sel today "Ann" "" "" "Bronze" (Some (mkdate 2024 4 15)) "" 1 true)
    = Some [Some (mkdate 2024 5 15)] /\
  plan_end_date today "Bronze" {[ "Bronze" := 1 ]} = Some (mkdate 2024 2 15).
Proof. split; [|split]; reflexivity. Qed.

(* ------------------------------------------------------------------ *)
(** ** Expiring soon *)

(** C9: the expiring-soon column and table test only [end_date <= soon],
    so a member whose end date is yesterday is flagged, while the
    renew/edit card classes the same member as expired. *)
Theorem expiring_soon_includes_expired :
  let today := mkdate 2024 6 15 in
  let m := {| MemberID := "M0001"; Name := "Ann"; Email := None; Phone := None;
              StartDate := Some (mkdate 2024 3 14); EndDate := Some (mkdate 2024 6 14);
              PlanType := Some "Bronze"; Status := Some Expired; Notes := None |} in
  soon_of today = Some (mkdate 2024 7 15) /\
  date_lt (mkdate 2024 6 14) today = true /\
  expiring_soon_flag (mkdate 2024 7 15) (EndDate m) = true /\
  map MemberID (expiring_soon_table (mkdate 2024 7 15) [m]) = ["M0001"] /\
  edit_card_flag today (mkdate 2024 7 15) (EndDate m) = FlagExpired.
Proof. vm_compute. repeat split. Qed.

(* ================================================================== *)
(** * Further properties of [app.py] *)

(* ------------------------------------------------------------------ *)
(** ** Status refresh and the write paths *)

Lemma refresh_status_map (today : date) (df : list member) :
  refresh_status today df = map (refresh_row today) df.
Proof. reflexivity. Qed.

Lemma refresh_row_fixed (today : date) (m : member) :
  Status m = Some (refresh_status_row today (EndDate m)) -> refresh_row today m = m.
Proof. destruct m; simpl; intros ->; reflexivity. Qed.

Lemma refresh_status_fixed (today : date) (df : list member) :
  (forall m, In m df -> Status m = Some (refresh_status_row today (EndDate m))) ->
  refresh_status today df = df.
Proof.
  rewrite refresh_status_map. intros H.
  induction df as [|m df IH]; [reflexivity|]. simpl.
  rewrite refresh_row_fixed by (apply H; left; reflexivity).
  rewrite IH by (intros m' Hm'; apply H; right; exact Hm'). reflexivity.
Qed.

(** X1: [refresh_status] gives every row a status, keeps the ID, start
    and end date columns, and a second refresh on the same day changes
    nothing. *)
Theorem refresh_status_idempotent (today : date) (df : list member) :
  refresh_status today (refresh_status today df) = refresh_status today df /\
  (forall m, In m (refresh_status today df) -> Status m <> None) /\
  map MemberID (refresh_status today df) = map MemberID df /\
  map StartDate (refresh_status today df) = map StartDate df /\
  map EndDate (refresh_status today df) = map EndDate df.
Proof.
  rewrite !refresh_status_map. split; [|split; [|split; [|split]]].
  - rewrite <- refresh_status_map. apply refresh_status_fixed.
    intros m Hm. apply in_map_iff in Hm as [m' [<- _]]. reflexivity.
  - intros m Hm. apply in_map_iff in Hm as [m' [<- _]]. discriminate.
  - rewrite map_map. reflexivity.
  - rewrite map_map. reflexivity.
  - rewrite map_map. reflexivity.
Qed.

(** X2: the status written by [add_member_to_db] and
    [update_member_in_db] is the one [refresh_status] computes: on the
    same day, a refreshed table stays unchanged by a refresh after an add
    or an update. *)
Theorem write_paths_agree_with_refresh (today : date) (ms : list member)
    (member_id name email phone : string) (start_date end_date : date)
    (plan_choice notes : string) :
  let R := refresh_status today ms in
  refresh_status today (add_member_to_db R today member_id name email phone
                          start_date end_date plan_choice notes) =
    add_member_to_db R today member_id name email phone start_date end_date
      plan_choice notes /\
  refresh_status today (update_member_in_db R today member_id name email phone
                          start_date end_date plan_choice notes) =
    update_member_in_db R today member_id name email phone start_date end_date
      plan_choice notes.
Proof.
  intros R.
  assert (HR : forall m, In m R -> Status m = Some (refresh_status_row today (EndDate m))).
  { intros m Hm. unfold R in Hm. rewrite refresh_status_map in Hm.
    apply in_map_iff in Hm as [m' [<- _]]. reflexivity. }
  split; apply refresh_status_fixed.
  - intros m Hm. unfold add_member_to_db in Hm. apply in_app_or in Hm as [Hm|[<-|[]]].
    + apply HR, Hm.
    + reflexivity.
  - intros m Hm. unfold update_member_in_db in Hm.
    apply in_map_iff in Hm as [m' [<- Hm']].
    destruct (String.eqb (MemberID m') member_id); [reflexivity|apply HR, Hm'].
Qed.

(* ------------------------------------------------------------------ *)
(** ** Dashboard *)

Lemma dashboard_filter_incl (pf sf : string) (members : list member) (r : member) :
  In r (dashboard_filter pf sf members) -> In r members.
Proof.
  unfold dashboard_filter.
  destruct (String.eqb pf "All"), (String.eqb sf "All"); intros H;
    repeat match goal with H : In _ (List.filter _ _) |- _ => apply filter_In in H as [H _] end;
    exact H.
Qed.

Lemma has_status_some (r : member) (st : status) (s : string) :
  Status r = Some st -> has_status s r = String.eqb (status_name st) s.
Proof. unfold has_status. intros ->. reflexivity. Qed.

Lemma status_counts_sum (df : list member) :
  (forall r, In r df -> Status r <> None) ->
  (length (List.filter (has_status "Active") df) +
   length (List.filter (has_status "Expired") df) +
   length (List.filter (has_status "Unknown") df) = length df)%nat.
Proof.
  induction df as [|r df IH]; intros H; [reflexivity|].
  simpl. rewrite <- IH by (intros r' Hr'; apply H; right; exact Hr').
  destruct (Status r) as [st|] eqn:E.
  - rewrite !(fun s => has_status_some r st s E). destruct st; simpl; lia.
  - exfalso. apply (H r); [left; reflexivity|exact E].
Qed.

(** X3: on the refreshed table, whatever the plan and status filters,
    the Active, Expired and Unknown KPI counts add up to the total. *)
Theorem kpi_counts_partition (today : date) (members : list member)
    (plan_filter status_filter : string) :
  let '(total, active, expired, unknown) :=
    kpi_counts (dashboard_filter plan_filter status_filter (refresh_status today members)) in
  (active + expired + unknown = total)%nat.
Proof.
  unfold kpi_counts. apply status_counts_sum.
  intros r Hr. apply dashboard_filter_incl in Hr.
  rewrite refresh_status_map in Hr. apply in_map_iff in Hr as [m [<- _]]. discriminate.
Qed.

(** X4: [last_month] is the last day of the previous calendar month:
    in a month after January the same year, in January the 31 December
    of the year before. *)
Theorem last_month_previous_month (today : date) :
  valid_date today = true ->
  (1 < month today ->
   last_month_of today =
     Some (mkdate (year today) (month today - 1)
            (days_in_month (year today) (month today - 1)))) /\
  (month today = 1 -> MINYEAR < year today ->
   last_month_of today = Some (mkdate (year today - 1) 12 31)).
Proof.
  intros _. unfold last_month_of. rewrite add_days_minus_one.
  unfold prev_day. cbn [day month year]. replace (1 <? 1) with false by reflexivity.
  split.
  - intros Hm. replace (1 <? month today) with true by (symmetry; apply Z.ltb_lt, Hm).
    reflexivity.
  - intros Hm Hy. rewrite Hm. replace (1 <? 1) with false by reflexivity.
    replace (MINYEAR <? year today) with true by (symmetry; apply Z.ltb_lt, Hy).
    reflexivity.
Qed.

Lemma last_month_previous_month_witness :
  last_month_of (mkdate 2024 3 20) = Some (mkdate 2024 2 29) /\
  last_month_of (mkdate 2025 1 5) = Some (mkdate 2024 12 31).
Proof.
  split.
  - apply (proj1 (last_month_previous_month (mkdate 2024 3 20) eq_refl)).
    simpl. lia.
  - apply (proj2 (last_month_previous_month (mkdate 2025 1 5) eq_refl));
      [reflexivity|unfold MINYEAR; simpl; lia].
Defined.

Lemma filter_length_mono {A} (f g : A -> bool) (l : list A) :
  (forall x, f x = true -> g x = true) ->
  (length (List.filter f l) <= length (List.filter g l))%nat.
Proof.
  intros H. induction l as [|x l IH]; simpl; [lia|].
  destruct (f x) eqn:Ef; [rewrite (H x Ef); simpl; lia|].
  destruct (g x); simpl; lia.
Qed.

(** X5: in the retention trend, the members active at a month end are
    never more than the members started by then, so a month with no
    started member has no active one. *)
Theorem active_at_month_le_total (m : date) (df : list member) :
  (active_at_month m df <= total_at_month m df)%nat.
Proof.
  apply filter_length_mono. intros r.
  destruct (StartDate r), (EndDate r); try discriminate.
  intros H. apply andb_true_iff in H as [H _]. exact H.
Qed.

(** X6: the renew/edit card agrees with [refresh_status]: "Expired" and
    "Unknown" exactly when the refreshed status is, and "Expiring Soon"
    or "Active" only for an [Active] member. *)
Theorem edit_card_flag_agrees (today soon : date) (e : option date) :
  match edit_card_flag today soon e with
  | FlagExpired => refresh_status_row today e = Expired
  | FlagUnknown => refresh_status_row today e = Unknown
  | FlagExpiringSoon | FlagActive => refresh_status_row today e = Active
  end.
Proof.
  destruct e as [e|]; [|reflexivity]. simpl.
  rewrite (date_le_negb_lt today e).
  destruct (date_lt e today); simpl; [reflexivity|].
  destruct (date_le e soon); reflexivity.
Qed.

(* ------------------------------------------------------------------ *)
(** ** Members tab *)

(** X7: a row shown in the members table is a stored member whose status
    is among the selected statuses and whose plan type is present and
    among the selected plans (a member with no plan type or a plan type
    outside the selection is never shown), and which matches a non-empty
    search. *)
Theorem members_view_sound (search : string) (status_filter plan_filter : list string)
    (members : list member) (r : member) :
  In r (members_view search status_filter plan_filter members) ->
  In r members /\
  (exists st, Status r = Some st /\ In (status_name st) status_filter) /\
  (exists p, PlanType r = Some p /\ In p plan_filter) /\
  (search <> "" -> matches_search (lower search) r = true).
Proof.
  unfold members_view. intros H.
  apply filter_In in H as [H Hp]. apply filter_In in H as [H Hs].
  assert (Hin : In r members /\ (search <> "" -> matches_search (lower search) r = true)).
  { destruct (String.eqb_spec search "") as [->|Hne].
    - split; [exact H|]. intros C; contradiction.
    - apply filter_In in H as [H Hm]. split; [exact H|intros _; exact Hm]. }
  destruct Hin as [Hin Hsearch].
  split; [exact Hin|]. split; [|split; [|exact Hsearch]].
  - unfold status_isin in Hs. destruct (Status r) as [st|]; [|discriminate].
    exists st. split; [reflexivity|]. apply str_in_spec, Hs.
  - unfold plan_isin in Hp. destruct (PlanType r) as [p|]; [|discriminate].
    exists p. split; [reflexivity|]. apply str_in_spec, Hp.
Qed.

Lemma members_view_sound_witness :
  let r := {| MemberID := "M0001"; Name := "Ann Lee"; Email := None; Phone := None;
              StartDate := None; EndDate := None; PlanType := Some "Gold";
              Status := Some Unknown; Notes := None |} in
  exists p, PlanType r = Some p /\ In p ["Gold"; "Bronze"].
Proof.
  intros r.
  refine (proj1 (proj2 (proj2 (members_view_sound "lee" ["Unknown"] ["Gold"; "Bronze"]
                                  [r] r _)))).
  vm_compute. left. reflexivity.
Defined.

(** X8: the search reads a missing email or phone as the text ["None"]:
    a member without an email matches every non-empty search that,
    lower-cased, occurs in ["none"] (e.g. ["None"], ["on"], ["E"]). *)
Theorem search_matches_missing_email (search : string) (r : member) :
  Email r = None -> contains (lower search) "none" = true ->
  matches_search (lower search) r = true.
Proof.
  intros He Hc. unfold matches_search. rewrite He. cbn [py_str].
  change (lower "None") with "none". rewrite Hc, orb_true_r. reflexivity.
Qed.

Lemma search_matches_missing_email_witness :
  matches_search (lower "ON")
    {| MemberID := "M0001"; Name := "Ann"; Email := None; Phone := Some "555";
       StartDate := None; EndDate := None; PlanType := None; Status := None;
       Notes := None |} = true.
Proof. apply search_matches_missing_email; reflexivity. Defined.

(* ------------------------------------------------------------------ *)
(** ** Delete and update *)

Lemma NoDup_map_filter {A B} (f : A -> B) (g : A -> bool) (l : list A) :
  NoDup (map f l) -> NoDup (map f (List.filter g l)).
Proof.
  induction l as [|x l IH]; intros Hnd; simpl; [exact Hnd|].
  simpl in Hnd. apply NoDup_cons in Hnd as [Hx Hnd].
  destruct (g x); [|apply IH, Hnd]. simpl. apply NoDup_cons. split; [|apply IH, Hnd].
  intros Hin. apply Hx. apply list_elem_of_In in Hin. apply list_elem_of_In.
  apply in_map_iff in Hin as [y [Hy Hyin]]. apply filter_In in Hyin as [Hyin _].
  rewrite <- Hy. apply in_map, Hyin.
Qed.

(** X9: deleting a member removes exactly the rows with that ID and keeps
    the others in order; deleting an absent ID changes nothing; and IDs
    stay distinct. *)
Theorem delete_member_spec (members : list member) (to_delete : string) :
  (forall r, In r (delete_member members to_delete) <-> In r members /\ MemberID r <> to_delete) /\
  (~ In to_delete (map MemberID members) -> delete_member members to_delete = members) /\
  (NoDup (map MemberID members) -> NoDup (map MemberID (delete_member members to_delete))).
Proof.
  unfold delete_member. split; [|split].
  - intros r. rewrite filter_In, negb_true_iff, String.eqb_neq. reflexivity.
  - induction members as [|m ms IH]; intros Hn; [reflexivity|]. simpl in *.
    destruct (String.eqb_spec (MemberID m) to_delete) as [E|E].
    + exfalso. apply Hn. left. exact E.
    + simpl. f_equal. apply IH. intros H. apply Hn. right. exact H.
  - apply NoDup_map_filter.
Qed.

Lemma delete_member_spec_witness :
  delete_member
    [{| MemberID := "M0001"; Name := "Ann"; Email := None; Phone := None;
        StartDate := None; EndDate := None; PlanType := None; Status := None;
        Notes := None |}] "M0009" =
    [{| MemberID := "M0001"; Name := "Ann"; Email := None; Phone := None;
        StartDate := None; EndDate := None; PlanType := None; Status := None;
        Notes := None |}].
Proof.
  apply (proj1 (proj2 (delete_member_spec _ "M0009"))).
  simpl. intros [H|[]]. discriminate.
Defined.

(** X10: [update_member_in_db] keeps the number of rows and the ID of
    every row, and leaves every row with another ID as it is. *)
Theorem update_member_frame (members : list member) (today : date)
    (member_id name email phone : string) (start_date end_date : date)
    (plan_choice notes : string) :
  map MemberID (update_member_in_db members today member_id name email phone start_date
                  end_date plan_choice notes) = map MemberID members /\
  (forall i r, members !! i = Some r -> MemberID r <> member_id ->
   update_member_in_db members today member_id name email phone start_date end_date
     plan_choice notes !! i = Some r).
Proof.
  unfold update_member_in_db. split.
  - rewrite map_map. apply map_ext. intros m.
    destruct (String.eqb (MemberID m) member_id); reflexivity.
  - induction members as [|m ms IH]; intros [|i] r Hi Hne; simpl in *; try discriminate.
    + injection Hi as ->. apply String.eqb_neq in Hne. rewrite Hne. reflexivity.
    + apply IH; assumption.
Qed.

Lemma update_member_frame_witness :
  let a := {| MemberID := "M0001"; Name := "Ann"; Email := None; Phone := None;
              StartDate := None; EndDate := None; PlanType := None; Status := None;
              Notes := None |} in
  let b := {| MemberID := "M0002"; Name := "Bob"; Email := None; Phone := None;
              StartDate := None; EndDate := None; PlanType := None; Status := None;
              Notes := None |} in
  update_member_in_db [a; b] (mkdate 2024 6 1) "M0002" "Bo" "" "" (mkdate 2024 1 1)
    (mkdate 2024 7 1) "Gold" "" !! 0%nat = Some a.
Proof.
  intros a b.
  apply (proj2 (update_member_frame [a; b] (mkdate 2024 6 1) "M0002" "Bo" "" ""
                  (mkdate 2024 1 1) (mkdate 2024 7 1) "Gold" "") 0%nat a);
    [reflexivity|discriminate].
Defined.

(* ------------------------------------------------------------------ *)
(** ** [plan_end_date] and the start date *)



(* ------------------------------------------------------------------ *)
(** ** Saving plans *)




(* ------------------------------------------------------------------ *)
(** ** Generated IDs in the add form *)




Lemma generate_member_id_cases (existing : list string) :
  (List.filter member_id_conforming existing = [] /\ generate_member_id existing = "M001") \/
  (exists n rest,
     map (fun v => int_of_digits (drop1 v)) (List.filter member_id_conforming existing)
       = n :: rest /\ 0 <= n /\
     generate_member_id existing = String "M"%char (format_04d (fold_left Z.max rest n + 1))).
Proof.
  unfold generate_member_id. cbv zeta. fold member_id_conforming.
  destruct (List.filter member_id_conforming existing) as [|v vs] eqn:E.
  - left. split; reflexivity.
  - right. simpl. eexists _, _. split; [reflexivity|]. split; [|reflexivity].
    assert (Hv : In v (List.filter member_id_conforming existing)) by (rewrite E; left; reflexivity).
    apply filter_In in Hv as [_ Hv]. apply andb_true_iff in Hv as [_ Hv].
    apply int_acc_nonneg; [lia|]. apply isdigit_all_digits, Hv.
Qed.




(** X14: generating an ID, adding it to the IDs and generating again
    gives the next suffix: successive auto-generated IDs are consecutive
    (M001, M0002, M0003, ... from an empty table). *)
Theorem generate_member_id_consecutive (existing : list string) :
  int_of_digits (drop1 (generate_member_id (existing ++ [generate_member_id existing]))) =
  int_of_digits (drop1 (generate_member_id existing)) + 1.
Proof.
  destruct (generate_member_id_cases existing) as [[Hnil Hg]|[n [rest [Hm [Hn Hg]]]]].
  - rewrite Hg. unfold generate_member_id. cbv zeta. fold member_id_conforming.
    rewrite List.filter_app, Hnil. reflexivity.
  - pose proof (fold_max_init rest n) as Hmx.
    destruct (format_04d_digits (fold_left Z.max rest n + 1) ltac:(lia)) as [Hd Hv].
    rewrite Hg. cbn [drop1]. rewrite Hv.
    unfold generate_member_id at 1. cbv zeta. fold member_id_conforming.
    rewrite List.filter_app, map_app, Hm. cbn [List.filter].
    unfold member_id_conforming at 1. cbn [startswith_M drop1]. rewrite Hd.
    change (("M" =? "M")%char && true) with true.
    cbn [map app drop1]. rewrite Hv.
    rewrite fold_left_app. cbn [fold_left].
    rewrite Z.max_r by lia.
    rewrite (proj2 (format_04d_digits (fold_left Z.max rest n + 1 + 1) ltac:(lia))).
    reflexivity.
Qed.

(* ------------------------------------------------------------------ *)
(** ** The plan preselected by the edit form *)

Lemma head_in {A} (l : list A) (x : A) : head l = Some x -> In x l.
Proof. destruct l; simpl; [discriminate|intros [= ->]; left; reflexivity]. Qed.

(** X15: saving the edit form with its preselected plan stores a plan
    that is a key of [plans]: the member's own plan type when it is one,
    otherwise (no plan type, or a plan no longer in [plans]) the first
    plan, which silently replaces the orphaned value. *)
Theorem edit_plan_default_saved (members : list member) (plan_keys : list string)
    (sel : member) (today : date) (name email phone : string) (end_date : option date)
    (notes : string) (renew_months : Z) (apply_quick : bool) (p : string)
    (ms' : list member) :
  edit_form_plan_default plan_keys sel = Some p ->
  edit_member_save members sel today name email phone p end_date notes renew_months
    apply_quick = Some ms' ->
  In p plan_keys /\
  (forall r, In r ms' -> MemberID r = MemberID sel -> PlanType r = Some p) /\
  (forall q, PlanType sel = Some q -> In q plan_keys -> p = q) /\
  (forall q, PlanType sel = Some q -> ~ In q plan_keys -> head plan_keys = Some p) /\
  (PlanType sel = None -> head plan_keys = Some p).
Proof.
  intros Hp Hs.
  split; [|split; [|split; [|split]]].
  - unfold edit_form_plan_default in Hp.
    destruct (PlanType sel) as [q|]; [|apply head_in, Hp].
    destruct (str_in q plan_keys) eqn:E; [|apply head_in, Hp].
    injection Hp as <-. apply str_in_spec, E.
  - unfold edit_member_save in Hs.
    destruct (quick_renew end_date today renew_months apply_quick); [|discriminate].
    injection Hs as <-. intros r Hr Hid. unfold update_member_in_db in Hr.
    apply in_map_iff in Hr as [m [Hm _]].
    destruct (String.eqb (MemberID m) (MemberID sel)) eqn:E.
    + subst r. reflexivity.
    + subst r. apply String.eqb_neq in E. contradiction.
  - intros q Hq Hin. unfold edit_form_plan_default in Hp. rewrite Hq in Hp.
    apply str_in_spec in Hin. rewrite Hin in Hp. injection Hp as <-. reflexivity.
  - intros q Hq Hnin. unfold edit_form_plan_default in Hp. rewrite Hq in Hp.
    destruct (str_in q plan_keys) eqn:E; [|exact Hp].
    exfalso. apply Hnin, str_in_spec, E.
  - intros Hq. unfold edit_form_plan_default in Hp. rewrite Hq in Hp. exact Hp.
Qed.

Lemma edit_plan_default_saved_witness :
  edit_form_plan_default ["Bronze"; "Silver"]
    {| MemberID := "M0001"; Name := "Ann"; Email := None; Phone := None;
       StartDate := Some (mkdate 2024 1 15); EndDate := Some (mkdate 2024 4 15);
       PlanType := Some "Diamond"; Status := None; Notes := None |} = Some "Bronze" /\
  In "Bronze" ["Bronze"; "Silver"].
Proof.
  split; [reflexivity|].
  exact (proj1 (edit_plan_default_saved
    [{| MemberID := "M0001"; Name := "Ann"; Email := None; Phone := None;
        StartDate := Some (mkdate 2024 1 15); EndDate := Some (mkdate 2024 4 15);
        PlanType := Some "Diamond"; Status := None; Notes := None |}]
    ["Bronze"; "Silver"]
    {| MemberID := "M0001"; Name := "Ann"; Email := None; Phone := None;
       StartDate := Some (mkdate 2024 1 15); EndDate := Some (mkdate 2024 4 15);
       PlanType := Some "Diamond"; Status := None; Notes := None |}
    (mkdate 2024 2 1) "Ann" "" "" (Some (mkdate 2024 4 15)) "" 0 false
    "Bronze" _ eq_refl eq_refl)).
Defined.
